(** * secsgem: HSMS packets and the SECS stream/function dispatch

    A shallow embedding of [secsgem/hsmsPackets.py] (headers, packets,
    [HsmsPacket.encode] / [HsmsPacket.decode]) and of the two lookup
    functions of [secsgem/secsHandler.py] ([streamFunction], [secsDecode]),
    with the properties of the wire format and of the dispatch.

    Python integers are unbounded, so header fields are [Z]; a Python 2
    [str] used as a byte string is a [list byte]; a raised exception is the
    left injection of a sum. *)

From Stdlib Require Import ZArith Lia Bool List.
From Stdlib Require Import Init.Byte Strings.Byte.
From stdpp Require Import base option list gmap strings.

Import ListNotations.
Local Open Scope Z_scope.

(** ** Exceptions *)

(** The codes of the format string [">LHBBBBL<n>s"]. The count of [s] is
    the number printed into the format, which [decode] computes as
    [len(text) - 14] and which can therefore be negative. *)
Inductive fmt_code : Type :=
| fmt_L
| fmt_H
| fmt_B
| fmt_s (count : Z).

(** What the code can raise. The first four are the [struct.error] cases of
    the [struct] module; [codec_error] stands for whatever a body codec of
    the catalogue raises from its own [decode]. *)
Inductive exception : Type :=
| struct_error_range (c : fmt_code)
    (* "'L' format requires 0 <= number <= 4294967295" and the like *)
| struct_error_format
    (* "bad char in struct format" *)
| struct_error_size
    (* "unpack requires a string argument of length n",
       "pack requires exactly n arguments" *)
| struct_error_type
    (* "cannot convert argument to integer",
       "argument for 's' must be a string" *)
| codec_error (code : Z).

Definition result (A : Type) : Type := exception + A.

#[global] Instance result_ret : MRet result := fun _ x => inr x.
#[global] Instance result_bind : MBind result := fun _ _ f m =>
  match m with
  | inl e => inl e
  | inr x => f x
  end.
#[global] Instance result_fmap : FMap result := fun _ _ f m =>
  match m with
  | inl e => inl e
  | inr x => inr (f x)
  end.

(** ** Bytes and big-endian integers *)

Definition byte_to_Z (b : byte) : Z := Z.of_N (Byte.to_N b).

Definition Z_to_byte (z : Z) : byte :=
  match Byte.of_N (Z.to_N (z mod 256)) with
  | Some b => b
  | None => x00
  end.

(** [to_be n v]: the [n] low-order octets of [v], most significant first. *)
Fixpoint to_be (n : nat) (v : Z) : list byte :=
  match n with
  | O => []
  | S k => Z_to_byte (Z.shiftr v (8 * Z.of_nat k)) :: to_be k v
  end.

Definition from_be_acc (acc : Z) (bs : list byte) : Z :=
  fold_left (fun a b => a * 256 + byte_to_Z b) bs acc.

Definition from_be (bs : list byte) : Z := from_be_acc 0 bs.

(** ** The part of the [struct] module the packets use

    The format is in network order ([>]): standard sizes, no padding. An
    integer outside the range of its code raises [struct.error]; since
    Python 2.7 [struct.pack] no longer masks it. *)

Module struct.

Inductive value : Type :=
| VInt (z : Z)
| VStr (s : list byte).

Definition item_size (c : fmt_code) : nat :=
  match c with
  | fmt_L => 4
  | fmt_H => 2
  | fmt_B => 1
  | fmt_s n => Z.to_nat n
  end.

(** A negative count prints as ["-1s"], and ['-'] is not a format
    character. *)
Definition code_ok (c : fmt_code) : bool :=
  match c with
  | fmt_s n => 0 <=? n
  | _ => true
  end.

Definition fmt_ok (fmt : list fmt_code) : bool := forallb code_ok fmt.

Fixpoint calcsize (fmt : list fmt_code) : nat :=
  match fmt with
  | [] => 0
  | c :: fmt' => item_size c + calcsize fmt'
  end.

Definition pack_uint (c : fmt_code) (v : Z) : result (list byte) :=
  if (0 <=? v) && (v <? 2 ^ (8 * Z.of_nat (item_size c)))
  then inr (to_be (item_size c) v)
  else inl (struct_error_range c).

(** [s] truncates its argument to the count, or pads it with zero
    octets. *)
Definition pack_item (c : fmt_code) (a : value) : result (list byte) :=
  match c, a with
  | fmt_s n, VStr s =>
      inr (take (Z.to_nat n) s ++ replicate (Z.to_nat n - length s) x00)
  | fmt_s _, VInt _ => inl struct_error_type
  | _, VInt v => pack_uint c v
  | _, VStr _ => inl struct_error_type
  end.

Fixpoint pack_items (fmt : list fmt_code) (args : list value)
  : result (list byte) :=
  match fmt, args with
  | [], [] => inr []
  | c :: fmt', a :: args' =>
      b ← pack_item c a;
      rest ← pack_items fmt' args';
      mret (b ++ rest)
  | _, _ => inl struct_error_size
  end.

Definition pack (fmt : list fmt_code) (args : list value)
  : result (list byte) :=
  if fmt_ok fmt then pack_items fmt args else inl struct_error_format.

Definition unpack_item (c : fmt_code) (bs : list byte) : value :=
  match c with
  | fmt_s _ => VStr bs
  | _ => VInt (from_be bs)
  end.

Fixpoint unpack_items (fmt : list fmt_code) (bs : list byte) : list value :=
  match fmt with
  | [] => []
  | c :: fmt' =>
      unpack_item c (take (item_size c) bs)
        :: unpack_items fmt' (drop (item_size c) bs)
  end.

Definition unpack (fmt : list fmt_code) (text : list byte)
  : result (list value) :=
  if fmt_ok fmt then
    if Nat.eqb (calcsize fmt) (length text)
    then inr (unpack_items fmt text)
    else inl struct_error_size
  else inl struct_error_format.

End struct.

(** ** Headers *)

Record HsmsHeader : Type := mkHeader {
  sessionID : Z;
  requireResponse : bool;
  stream : Z;
  function : Z;
  pType : Z;
  sType : Z;
  system : Z
}.

(** Attribute assignments, [self.x = v]. *)
Definition set_sessionID (v : Z) (h : HsmsHeader) : HsmsHeader :=
  mkHeader v (requireResponse h) (stream h) (function h) (pType h) (sType h)
    (system h).
Definition set_requireResponse (v : bool) (h : HsmsHeader) : HsmsHeader :=
  mkHeader (sessionID h) v (stream h) (function h) (pType h) (sType h)
    (system h).
Definition set_stream (v : Z) (h : HsmsHeader) : HsmsHeader :=
  mkHeader (sessionID h) (requireResponse h) v (function h) (pType h) (sType h)
    (system h).
Definition set_function (v : Z) (h : HsmsHeader) : HsmsHeader :=
  mkHeader (sessionID h) (requireResponse h) (stream h) v (pType h) (sType h)
    (system h).
Definition set_pType (v : Z) (h : HsmsHeader) : HsmsHeader :=
  mkHeader (sessionID h) (requireResponse h) (stream h) (function h) v (sType h)
    (system h).
Definition set_sType (v : Z) (h : HsmsHeader) : HsmsHeader :=
  mkHeader (sessionID h) (requireResponse h) (stream h) (function h) (pType h) v
    (system h).
Definition set_system (v : Z) (h : HsmsHeader) : HsmsHeader :=
  mkHeader (sessionID h) (requireResponse h) (stream h) (function h) (pType h)
    (sType h) v.

(** [HsmsHeader.__init__(self, system, session_id)] *)
Definition HsmsHeader_init (system session_id : Z) : HsmsHeader :=
  {| sessionID := session_id;
     requireResponse := false;
     stream := 0x00;
     function := 0x00;
     pType := 0x00;
     sType := 0x01;
     system := system |}.

(** The body the control headers share: the base initialiser with session
    [0xFFFF], then the five assignments. *)
Definition control_init (system s_stream s_function s_type : Z) : HsmsHeader :=
  set_sType s_type
    (set_pType 0x00
      (set_function s_function
        (set_stream s_stream
          (set_requireResponse false (HsmsHeader_init system 0xFFFF))))).

Definition HsmsSelectReqHeader (system : Z) : HsmsHeader :=
  control_init system 0x00 0x00 0x01.
Definition HsmsSelectRspHeader (system : Z) : HsmsHeader :=
  control_init system 0x00 0x00 0x02.
Definition HsmsDeselectReqHeader (system : Z) : HsmsHeader :=
  control_init system 0x00 0x00 0x03.
Definition HsmsDeselectRspHeader (system : Z) : HsmsHeader :=
  control_init system 0x00 0x00 0x04.
Definition HsmsLinktestReqHeader (system : Z) : HsmsHeader :=
  control_init system 0x00 0x00 0x05.
Definition HsmsLinktestRspHeader (system : Z) : HsmsHeader :=
  control_init system 0x00 0x00 0x06.
Definition HsmsRejectReqHeader (system s_type reason : Z) : HsmsHeader :=
  control_init system s_type reason 0x07.
Definition HsmsSeparateReqHeader (system : Z) : HsmsHeader :=
  control_init system 0x00 0x00 0x09.

Definition HsmsStreamFunctionHeader
    (system stream function : Z) (require_response : bool) (session_id : Z)
  : HsmsHeader :=
  set_system system
    (set_sType 0x00
      (set_pType 0x00
        (set_function function
          (set_stream stream
            (set_requireResponse require_response
              (set_sessionID session_id
                (HsmsHeader_init system session_id))))))).

(** ** Packets *)

Record HsmsPacket : Type := mkPacket {
  header : HsmsHeader;
  data : list byte
}.

(** [HsmsPacket.__init__(self, header=None, data="")] *)
Definition HsmsPacket_init (header : option HsmsHeader) (data : list byte)
  : HsmsPacket :=
  match header with
  | None => mkPacket (HsmsHeader_init 0 0) data
  | Some h => mkPacket h data
  end.

Definition packet_fmt (data_length : Z) : list fmt_code :=
  [fmt_L; fmt_H; fmt_B; fmt_B; fmt_B; fmt_B; fmt_L; fmt_s data_length].

Definition encode (self : HsmsPacket) : result (list byte) :=
  let length := 10 + Z.of_nat (length (data self)) in
  let data_length := Z.of_nat (List.length (data self)) in
  let header_stream := stream (header self) in
  let header_stream :=
    if requireResponse (header self)
    then Z.lor header_stream 0x80
    else header_stream in
  struct.pack (packet_fmt data_length)
    [struct.VInt length;
     struct.VInt (sessionID (header self));
     struct.VInt header_stream;
     struct.VInt (function (header self));
     struct.VInt (pType (header self));
     struct.VInt (sType (header self));
     struct.VInt (system (header self));
     struct.VStr (data self)].

Definition decode (text : list byte) : result HsmsPacket :=
  let data_length := Z.of_nat (length text) - 14 in
  res ← struct.unpack (packet_fmt data_length) text;
  match res with
  | [struct.VInt _; struct.VInt res1; struct.VInt res2; struct.VInt res3;
     struct.VInt res4; struct.VInt res5; struct.VInt res6; struct.VStr res7] =>
      let result := HsmsPacket_init (Some (HsmsHeader_init res6 res1)) [] in
      let h := header result in
      let h :=
        set_requireResponse
          (Z.shiftr (Z.land res2 0x80) 7 =? 1) h in
      let h := set_stream (Z.land res2 0x7F) h in
      let h := set_function res3 h in
      let h := set_pType res4 h in
      let h := set_sType res5 h in
      mret (mkPacket h res7)
  | _ => inl struct_error_type
  end.

(** ** The handler's dispatch ([secsHandler.py]) *)

(** What the two lookups hand to [logging]. *)
Inductive log_record : Type :=
| warning_unknown_function (stream function : Z)
    (* logging.warning("unknown function S%02dF%02d", stream, function) *)
| debug_decoding (stream function : Z) (name : string)
    (* logging.debug("decoding function S{}F{} using {}".format(...)) *)
| debug_decoded (repr : string).
    (* logging.debug("decoded {}".format(function)) *)

(** The classes of [secsFunctions] are not part of these sources. The
    lookups use four things of a class [c]: its [__name__], the call [c()],
    the method [decode] of the instance (which fills the instance in place
    and may raise), and the text the instance formats to. *)
Class SecsFunction (cls obj : Type) : Type := {
  cls_name : cls -> string;
  cls_call : cls -> obj;
  obj_decode : obj -> list byte -> result obj;
  obj_format : obj -> string
}.

Section Handler.

Context {cls obj : Type} `{SecsFunction cls obj}.

(** The attributes of [secsDefaultHandler] the lookups read. The tables
    are the nested dictionaries [stream -> function -> class]. *)
Record secsDefaultHandler : Type := mkHandler {
  isHost : bool;
  secsStreamsFunctionsHost : gmap Z (gmap Z cls);
  secsStreamsFunctionsEquipment : gmap Z (gmap Z cls)
}.

(** The state a method runs in: the handler object and the records
    written to the log so far. *)
Record world : Type := mkWorld {
  self : secsDefaultHandler;
  logging : list log_record
}.

Definition M (A : Type) : Type := world -> result A * world.

#[global] Instance M_ret : MRet M := fun _ x w => (inr x, w).
#[global] Instance M_bind : MBind M := fun _ _ f m w =>
  match m w with
  | (inl e, w') => (inl e, w')
  | (inr x, w') => f x w'
  end.

Definition get_self : M secsDefaultHandler := fun w => (inr (self w), w).

Definition log (r : log_record) : M unit :=
  fun w => (inr tt, mkWorld (self w) (logging w ++ [r])).

Definition lift {A : Type} (m : result A) : M A := fun w => (m, w).

Definition streamFunction (stream function : Z) : M (option cls) :=
  self ← get_self;
  let secsStreamsFunctions :=
    if isHost self
    then secsStreamsFunctionsHost self
    else secsStreamsFunctionsEquipment self in
  match secsStreamsFunctions !! stream with
  | None =>
      log (warning_unknown_function stream function);;
      mret None
  | Some functions =>
      match functions !! function with
      | None =>
          log (warning_unknown_function stream function);;
          mret None
      | Some c => mret (Some c)
      end
  end.

Definition secsDecode (packet : HsmsPacket) : M (option obj) :=
  self ← get_self;
  let secsStreamsFunctions :=
    if isHost self
    then secsStreamsFunctionsEquipment self
    else secsStreamsFunctionsHost self in
  let p_stream := stream (header packet) in
  let p_function := function (header packet) in
  match secsStreamsFunctions !! p_stream with
  | None =>
      log (warning_unknown_function p_stream p_function);;
      mret None
  | Some functions =>
      match functions !! p_function with
      | None =>
          log (warning_unknown_function p_stream p_function);;
          mret None
      | Some c =>
          log (debug_decoding p_stream p_function (cls_name c));;
          let function := cls_call c in
          function ← lift (obj_decode function (data packet));
          log (debug_decoded (obj_format function));;
          mret (Some function)
      end
  end.

(** The codec registered for [(stream, function)] in one table. *)
Definition registered (table : gmap Z (gmap Z cls)) (stream function : Z)
  : option cls :=
  table !! stream ≫= fun functions => functions !! function.

End Handler.

Arguments secsDefaultHandler : clear implicits.
Arguments world : clear implicits.

(** ** Vocabulary of the statements *)

(** The integer [encode] hands to [struct.pack] for the stream octet: the
    local [header_stream] of the method. *)
Definition header_stream (h : HsmsHeader) : Z :=
  if requireResponse h then Z.lor (stream h) 0x80 else stream h.

(** The stream octet as the layout table of the specification words it:
    [(stream & 0x7F) | (0x80 if responseExpected else 0)]. *)
Definition spec_stream_byte (h : HsmsHeader) : Z :=
  Z.lor (Z.land (stream h) 0x7F) (if requireResponse h then 0x80 else 0).

(** Every field fits the width the format gives it. *)
Definition header_in_range (h : HsmsHeader) : Prop :=
  0 <= sessionID h < 2 ^ 16 /\
  0 <= stream h < 2 ^ 8 /\
  0 <= function h < 2 ^ 8 /\
  0 <= pType h < 2 ^ 8 /\
  0 <= sType h < 2 ^ 8 /\
  0 <= system h < 2 ^ 32.

(** Some field is larger than its width allows. *)
Definition field_overflow (h : HsmsHeader) : Prop :=
  2 ^ 16 <= sessionID h \/
  2 ^ 8 <= stream h \/
  2 ^ 8 <= function h \/
  2 ^ 8 <= pType h \/
  2 ^ 8 <= sType h \/
  2 ^ 32 <= system h.

(** The payload is too long for the 32-bit length field. *)
Definition payload_overflow (d : list byte) : Prop :=
  2 ^ 32 <= 10 + Z.of_nat (length d).

(** The fourteen octets of the layout, then the payload. *)
Definition wire (h : HsmsHeader) (d : list byte) : list byte :=
  to_be 4 (10 + Z.of_nat (length d))
    ++ to_be 2 (sessionID h)
    ++ to_be 1 (header_stream h)
    ++ to_be 1 (function h)
    ++ to_be 1 (pType h)
    ++ to_be 1 (sType h)
    ++ to_be 4 (system h)
    ++ d.

(** The arguments of [struct.pack], each within the range of its code. *)
Definition packed_in_range (h : HsmsHeader) (d : list byte) : Prop :=
  0 <= 10 + Z.of_nat (length d) < 2 ^ 32 /\
  0 <= sessionID h < 2 ^ 16 /\
  0 <= header_stream h < 2 ^ 8 /\
  0 <= function h < 2 ^ 8 /\
  0 <= pType h < 2 ^ 8 /\
  0 <= sType h < 2 ^ 8 /\
  0 <= system h < 2 ^ 32.

(** What [decode] makes of a header that went over the wire. *)
Definition received (h : HsmsHeader) : HsmsHeader :=
  {| sessionID := sessionID h;
     requireResponse := requireResponse h || Z.testbit (stream h) 7;
     stream := Z.land (stream h) 0x7F;
     function := function h;
     pType := pType h;
     sType := sType h;
     system := system h |}.

(** The unsigned integer at [width] octets from [offset]. *)
Definition field_at (offset width : nat) (text : list byte) : Z :=
  from_be (take width (drop offset text)).

(** A header with the top bit of [stream] set and no response asked for,
    and the docstring's fourteen octets whose length field says 11. *)
Definition sample_top_bit_header : HsmsHeader :=
  HsmsStreamFunctionHeader 0 131 0 false 0.

Definition sample_docstring_text : list byte :=
  [x00; x00; x00; x0b; xff; xff; x00; x00; x00; x05; x00; x00; x00; x02].

(** A data header asking for a response on stream 3, with a payload of
    three octets, and a text one octet short of a header. *)
Definition sample_data_header : HsmsHeader :=
  HsmsStreamFunctionHeader 22 3 1 true 100.

Definition sample_payload : list byte := [x01; x02; x03].

Definition sample_short_text : list byte :=
  [x00; x00; x00; x0a; xff; xff; x00; x00; x00; x05; x00; x00; x00].

(** A header whose session identifier needs seventeen bits, and a payload
    of [2^32 - 10] octets. *)
Definition sample_wide_header : HsmsHeader := HsmsHeader_init 1 0x10000.

Definition sample_huge_payload : list byte :=
  replicate (Z.to_nat (2 ^ 32 - 10)) x00.

(** A catalogue of two classes for the examples: the host sends S1F1, the
    equipment answers S1F2. An instance keeps the payload it decoded. *)
Inductive sample_cls : Type := secsS01F01 | secsS01F02.

#[global] Instance sample_codec
  : SecsFunction sample_cls (sample_cls * list byte) := {
  cls_name c :=
    match c with
    | secsS01F01 => "secsS01F01"%string
    | secsS01F02 => "secsS01F02"%string
    end;
  cls_call c := (c, []);
  obj_decode o d := inr (fst o, d);
  obj_format o :=
    match fst o with
    | secsS01F01 => "S1F1"%string
    | secsS01F02 => "S1F2"%string
    end
}.

Definition sample_host_table : gmap Z (gmap Z sample_cls) :=
  {[ 1 := {[ 1 := secsS01F01 ]} ]}.

Definition sample_equipment_table : gmap Z (gmap Z sample_cls) :=
  {[ 1 := {[ 2 := secsS01F02 ]} ]}.

Definition sample_host : world sample_cls :=
  mkWorld (mkHandler true sample_host_table sample_equipment_table) [].

Definition sample_equipment : world sample_cls :=
  mkWorld (mkHandler false sample_host_table sample_equipment_table) [].

(** A handler whose tables are empty. *)
Definition sample_empty : world sample_cls :=
  mkWorld (mkHandler true ∅ ∅) [].

(** The header that [sample_top_bit_header] is received as. *)
Definition sample_folded_header : HsmsHeader :=
  HsmsStreamFunctionHeader 0 3 0 true 0.

(** The layout with any number [n] in the length field. *)
Definition frame (n : Z) (h : HsmsHeader) (payload : list byte) : list byte :=
  to_be 4 n
    ++ to_be 2 (sessionID h)
    ++ to_be 1 (header_stream h)
    ++ to_be 1 (function h)
    ++ to_be 1 (pType h)
    ++ to_be 1 (sType h)
    ++ to_be 4 (system h)
    ++ payload.

(** The control headers that take the transaction identifier alone, each
    with the message type it stands for. *)
Definition control_variants : list ((Z -> HsmsHeader) * Z) :=
  [(HsmsSelectReqHeader, 1); (HsmsSelectRspHeader, 2);
   (HsmsDeselectReqHeader, 3); (HsmsDeselectRspHeader, 4);
   (HsmsLinktestReqHeader, 5); (HsmsLinktestRspHeader, 6);
   (HsmsSeparateReqHeader, 9)].

(** ** The name lookups of the handler *)

Section Names.

(** The values kept in the dictionaries are Python objects of any kind;
    [py_str] makes one of a string. *)
Context {pyobj : Type} (py_str : string -> pyobj).

(** The two dictionaries the name lookups read: [ceids] and [dvs], each
    from an identifier to a dictionary of attributes. *)
Record secsNames : Type := mkNames {
  ceids : gmap Z (gmap string pyobj);
  dvs : gmap Z (gmap string pyobj)
}.

Definition getCEIDName (self : secsNames) (ceid : Z) : pyobj :=
  match ceids self !! ceid with
  | Some attributes =>
      match attributes !! "name"%string with
      | Some name => name
      | None => py_str ""
      end
  | None => py_str ""
  end.

Definition getDVIDName (self : secsNames) (dvid : Z) : pyobj :=
  match dvs self !! dvid with
  | Some attributes =>
      match attributes !! "name"%string with
      | Some name => name
      | None => py_str ""
      end
  | None => py_str ""
  end.

End Names.

Arguments secsNames : clear implicits.

(** A collection event with a name, one without, and no data values. *)
Definition sample_names : secsNames string :=
  mkNames
    {[ 1 := {[ "name"%string := "ProcessStarted"%string ]};
       2 := {[ "dv"%string := "100"%string ]} ]}
    ∅.

(** An S1F2 with the response bit set, as an equipment would send it:
    octet 6 is [0x81], octet 7 is 2, and the payload is three octets. *)
Definition sample_s1f2_text : list byte :=
  [x00; x00; x00; x0d; x00; x00; x81; x02; x00; x00; x00; x00; x00; x07;
   x01; x02; x03].

(** * Properties *)

(** ** Octets *)

Lemma byte_to_Z_range (b : byte) : 0 <= byte_to_Z b < 256.
Proof.
  unfold byte_to_Z. pose proof (Byte.to_N_bounded b) as Hb. lia.
Qed.

Lemma byte_to_Z_to_byte (z : Z) : byte_to_Z (Z_to_byte z) = z mod 256.
Proof.
  unfold Z_to_byte, byte_to_Z.
  pose proof (Z.mod_pos_bound z 256 eq_refl) as Hz.
  destruct (Byte.of_N (Z.to_N (z mod 256))) as [b|] eqn:E.
  - apply Byte.to_of_N in E. rewrite E. lia.
  - apply Byte.of_N_None_iff in E. lia.
Qed.

Lemma length_to_be (n : nat) (v : Z) : length (to_be n v) = n.
Proof. induction n as [|n IH]; simpl; [reflexivity | now rewrite IH]. Qed.

Lemma from_be_acc_to_be (n : nat) (v acc : Z) :
  from_be_acc acc (to_be n v)
  = acc * 2 ^ (8 * Z.of_nat n) + v mod 2 ^ (8 * Z.of_nat n).
Proof.
  revert acc. induction n as [|n IH]; intros acc.
  - simpl. rewrite Z.mod_1_r. lia.
  - cbn [to_be from_be_acc fold_left]. fold (from_be_acc (acc * 256 + byte_to_Z
      (Z_to_byte (Z.shiftr v (8 * Z.of_nat n)))) (to_be n v)).
    rewrite IH, byte_to_Z_to_byte, Z.shiftr_div_pow2 by lia.
    replace (8 * Z.of_nat (S n)) with (8 * Z.of_nat n + 8) by lia.
    rewrite Z.pow_add_r by lia.
    assert (0 < 2 ^ (8 * Z.of_nat n)) as Hp by (apply Z.pow_pos_nonneg; lia).
    rewrite (Z.rem_mul_r v (2 ^ (8 * Z.of_nat n)) (2 ^ 8)) by lia.
    change (2 ^ 8) with 256. lia.
Qed.

Lemma from_be_to_be (n : nat) (v : Z) :
  0 <= v < 2 ^ (8 * Z.of_nat n) -> from_be (to_be n v) = v.
Proof.
  intros Hv. unfold from_be. rewrite from_be_acc_to_be.
  rewrite Z.mod_small by lia. lia.
Qed.


(** ** The response bit of the stream octet *)

Lemma response_bit_testbit (b : Z) :
  (Z.shiftr (Z.land b 0x80) 7 =? 1) = Z.testbit b 7.
Proof.
  rewrite Z.shiftr_land. change (Z.shiftr 0x80 7) with (Z.ones 1).
  rewrite Z.land_ones, Z.shiftr_div_pow2 by lia.
  rewrite Z.testbit_eqb by lia. reflexivity.
Qed.

Lemma low7_range (b : Z) : 0 <= Z.land b 0x7F <= 127.
Proof.
  change (Z.land b 0x7F) with (Z.land b (Z.ones 7)).
  rewrite Z.land_ones by lia.
  pose proof (Z.mod_pos_bound b (2 ^ 7) eq_refl) as Hb.
  change (2 ^ 7) with 128 in *. lia.
Qed.

Lemma low7_small (s : Z) : 0 <= s <= 127 -> Z.land s 0x7F = s.
Proof.
  intros Hs. change 0x7F with (Z.ones 7). rewrite Z.land_ones by lia.
  apply Z.mod_small. change (2 ^ 7) with 128. lia.
Qed.

Lemma testbit7_small (s : Z) : 0 <= s <= 127 -> Z.testbit s 7 = false.
Proof.
  intros Hs. apply Z.testbit_false; [lia|].
  rewrite Z.div_small by (change (2 ^ 7) with 128; lia). reflexivity.
Qed.

Lemma low7_lor_0x80 (s : Z) : Z.land (Z.lor s 0x80) 0x7F = Z.land s 0x7F.
Proof.
  rewrite Z.land_lor_distr_l. change (Z.land 0x80 0x7F) with 0.
  apply Z.lor_0_r.
Qed.

Lemma testbit7_lor_0x80 (s : Z) : Z.testbit (Z.lor s 0x80) 7 = true.
Proof. rewrite Z.lor_spec. change (Z.testbit 0x80 7) with true. apply orb_true_r. Qed.

Lemma lor_0x80_range (s : Z) : 0 <= s < 256 -> 0 <= Z.lor s 0x80 < 256.
Proof.
  intros Hs.
  assert (0 <= Z.lor s 0x80) as Hnn by (apply Z.lor_nonneg; lia).
  split; [exact Hnn|].
  assert (Z.lor s 0x80 <> 0) as Hnz.
  { intros E. pose proof (testbit7_lor_0x80 s) as Ht. rewrite E in Ht.
    discriminate Ht. }
  change 256 with (2 ^ 8). apply Z.log2_lt_pow2; [lia|].
  rewrite Z.log2_lor by lia. change (Z.log2 0x80) with 7.
  destruct (Z.eq_dec s 0) as [->|Hs0]; [reflexivity|].
  assert (Z.log2 s < 8) by (apply Z.log2_lt_pow2; change (2 ^ 8) with 256; lia).
  lia.
Qed.

(** ** [struct.pack] and [struct.unpack] *)

Lemma pack_uint_ok (c : fmt_code) (v : Z) :
  0 <= v < 2 ^ (8 * Z.of_nat (struct.item_size c)) ->
  struct.pack_uint c v = inr (to_be (struct.item_size c) v).
Proof.
  intros Hv. unfold struct.pack_uint.
  destruct (Z.leb_spec 0 v); [|lia].
  destruct (Z.ltb_spec v (2 ^ (8 * Z.of_nat (struct.item_size c)))); [|lia].
  reflexivity.
Qed.

Lemma pack_uint_overflow (c : fmt_code) (v : Z) :
  ~ 0 <= v < 2 ^ (8 * Z.of_nat (struct.item_size c)) ->
  struct.pack_uint c v = inl (struct_error_range c).
Proof.
  intros Hv. unfold struct.pack_uint.
  destruct (Z.leb_spec 0 v); [|reflexivity].
  destruct (Z.ltb_spec v (2 ^ (8 * Z.of_nat (struct.item_size c)))); [lia|].
  reflexivity.
Qed.

Lemma pack_uint_cases (c : fmt_code) (v : Z) :
  (0 <= v < 2 ^ (8 * Z.of_nat (struct.item_size c))
   /\ struct.pack_uint c v = inr (to_be (struct.item_size c) v))
  \/ (~ 0 <= v < 2 ^ (8 * Z.of_nat (struct.item_size c))
      /\ struct.pack_uint c v = inl (struct_error_range c)).
Proof.
  destruct (Z_le_dec 0 v) as [H0|H0];
    [destruct (Z_lt_dec v (2 ^ (8 * Z.of_nat (struct.item_size c)))) as [H1|H1]|].
  - left. split; [lia|]. apply pack_uint_ok. lia.
  - right. split; [lia|]. apply pack_uint_overflow. lia.
  - right. split; [lia|]. apply pack_uint_overflow. lia.
Qed.

Lemma fmt_ok_packet_fmt (n : Z) : struct.fmt_ok (packet_fmt n) = (0 <=? n).
Proof. unfold struct.fmt_ok. simpl. apply andb_true_r. Qed.

Lemma calcsize_packet_fmt (n : Z) :
  struct.calcsize (packet_fmt n) = (14 + Z.to_nat n)%nat.
Proof. unfold packet_fmt. cbn [struct.calcsize struct.item_size]. lia. Qed.

(** ** [encode] *)

Lemma header_stream_range (h : HsmsHeader) :
  0 <= stream h < 2 ^ 8 -> 0 <= header_stream h < 2 ^ 8.
Proof.
  intros Hs. unfold header_stream. destruct (requireResponse h); [|exact Hs].
  change (2 ^ 8) with 256 in *. now apply lor_0x80_range.
Qed.

Lemma encode_in_range (h : HsmsHeader) (d : list byte) :
  header_in_range h -> ~ payload_overflow d ->
  encode (mkPacket h d) = inr (wire h d).
Proof.
  intros (Hsid & Hst & Hfn & Hpt & Hsty & Hsys) Hlen.
  unfold payload_overflow in Hlen.
  pose proof (header_stream_range h Hst) as Hhs.
  unfold encode, struct.pack. rewrite fmt_ok_packet_fmt.
  destruct (Z.leb_spec 0 (Z.of_nat (length (data (mkPacket h d))))); [|lia].
  fold (header_stream (header (mkPacket h d))).
  cbn [header data packet_fmt struct.pack_items struct.pack_item].
  rewrite !pack_uint_ok by (cbn [struct.item_size]; lia).
  cbn [mbind result_bind mret result_ret struct.item_size].
  rewrite Nat2Z.id, Nat.sub_diag, firstn_all. cbn [replicate].
  unfold wire. now rewrite !app_nil_r.
Qed.

Lemma length_wire (h : HsmsHeader) (d : list byte) :
  length (wire h d) = (14 + length d)%nat.
Proof. unfold wire. rewrite !length_app, !length_to_be. lia. Qed.

(** ** [decode] *)

Lemma decode_short (text : list byte) :
  (length text < 14)%nat -> decode text = inl struct_error_format.
Proof.
  intros Hlen. unfold decode, struct.unpack. rewrite fmt_ok_packet_fmt.
  destruct (Z.leb_spec 0 (Z.of_nat (length text) - 14)); [lia|reflexivity].
Qed.

(** From fourteen octets on, [decode] returns, and each field is the
    unsigned integer at its offset, whatever the octets are. *)
Lemma decode_long (text : list byte) :
  (14 <= length text)%nat ->
  decode text
  = inr (mkPacket
           {| sessionID := field_at 4 2 text;
              requireResponse := Z.testbit (field_at 6 1 text) 7;
              stream := Z.land (field_at 6 1 text) 0x7F;
              function := field_at 7 1 text;
              pType := field_at 8 1 text;
              sType := field_at 9 1 text;
              system := field_at 10 4 text |}
           (drop 14 text)).
Proof.
  intros Hlen. unfold decode, struct.unpack. rewrite fmt_ok_packet_fmt.
  destruct (Z.leb_spec 0 (Z.of_nat (length text) - 14)); [|lia].
  rewrite calcsize_packet_fmt.
  replace (14 + Z.to_nat (Z.of_nat (length text) - 14))%nat
    with (length text) by lia.
  rewrite Nat.eqb_refl.
  cbn [mbind result_bind packet_fmt struct.unpack_items struct.unpack_item
       struct.item_size].
  rewrite !drop_drop. cbn [Nat.add].
  cbn [mret result_ret HsmsPacket_init header HsmsHeader_init
       set_requireResponse set_stream set_function set_pType set_sType
       sessionID requireResponse stream function pType sType system].
  rewrite response_bit_testbit. unfold field_at.
  rewrite (take_ge (drop 14 text)) by (rewrite length_drop; lia).
  reflexivity.
Qed.

Lemma field_at_byte (i : nat) (text : list byte) (b : byte) :
  text !! i = Some b -> field_at i 1 text = byte_to_Z b.
Proof.
  intros Hi. unfold field_at.
  rewrite <- (take_drop_middle text i b Hi), drop_app_length'
    by (rewrite length_take; apply lookup_lt_Some in Hi; lia).
  reflexivity.
Qed.

Lemma field_at_skip (off n : nat) (pre rest : list byte) :
  (length pre <= off)%nat ->
  field_at off n (pre ++ rest) = field_at (off - length pre) n rest.
Proof. intros Hle. unfold field_at. now rewrite drop_app_ge. Qed.

Lemma field_at_here (n : nat) (v : Z) (post : list byte) :
  0 <= v < 2 ^ (8 * Z.of_nat n) -> field_at 0 n (to_be n v ++ post) = v.
Proof.
  intros Hv. unfold field_at. rewrite drop_0.
  rewrite take_app_length' by (symmetry; apply length_to_be).
  now apply from_be_to_be.
Qed.

Ltac skip_fields :=
  repeat (rewrite field_at_skip by (rewrite length_to_be; lia);
          rewrite length_to_be; cbn [Nat.sub]).

(** Reading the layout back field by field. *)
Lemma field_at_wire (h : HsmsHeader) (d : list byte) :
  header_in_range h -> ~ payload_overflow d ->
  field_at 0 4 (wire h d) = 10 + Z.of_nat (length d) /\
  field_at 4 2 (wire h d) = sessionID h /\
  field_at 6 1 (wire h d) = header_stream h /\
  field_at 7 1 (wire h d) = function h /\
  field_at 8 1 (wire h d) = pType h /\
  field_at 9 1 (wire h d) = sType h /\
  field_at 10 4 (wire h d) = system h /\
  drop 14 (wire h d) = d.
Proof.
  intros (Hsid & Hst & Hfn & Hpt & Hsty & Hsys) Hlen.
  unfold payload_overflow in Hlen.
  pose proof (header_stream_range h Hst) as Hhs.
  unfold wire.
  split; [|split; [|split; [|split; [|split; [|split; [|split]]]]]];
    skip_fields; try (apply field_at_here; lia).
  repeat (rewrite drop_app_ge by (rewrite length_to_be; lia);
          rewrite length_to_be; cbn [Nat.sub]).
  apply drop_0.
Qed.

(** The header [decode] returns for the octets [encode] produced. *)
Lemma decode_wire (h : HsmsHeader) (d : list byte) :
  header_in_range h -> ~ payload_overflow d ->
  decode (wire h d) = inr (mkPacket (received h) d).
Proof.
  intros Hh Hd. rewrite decode_long by (rewrite length_wire; lia).
  destruct (field_at_wire h d Hh Hd)
    as (_ & -> & -> & -> & -> & -> & -> & ->).
  unfold received, header_stream. do 2 f_equal.
  destruct (requireResponse h); cbn [orb].
  - rewrite testbit7_lor_0x80, low7_lor_0x80. reflexivity.
  - reflexivity.
Qed.

(** ** When [encode] raises *)

Lemma lor_0x80_overflow (s : Z) : 2 ^ 8 <= s -> 2 ^ 8 <= Z.lor s 0x80.
Proof.
  intros Hs. change (2 ^ 8) with 256 in Hs.
  assert (8 <= Z.log2 s) as Hl by (apply Z.log2_le_pow2; [lia|exact Hs]).
  assert (0 <= Z.lor s 0x80) as Hnn by (apply Z.lor_nonneg; lia).
  assert (Z.log2 (Z.lor s 0x80) = Z.max (Z.log2 s) 7) as Hlog
    by (rewrite Z.log2_lor by lia; reflexivity).
  assert (Z.lor s 0x80 <> 0) as Hnz.
  { intros E. rewrite E in Hlog. change (Z.log2 0) with 0 in Hlog. lia. }
  apply Z.log2_le_pow2; lia.
Qed.

Lemma header_stream_overflow (h : HsmsHeader) :
  2 ^ 8 <= stream h -> 2 ^ 8 <= header_stream h.
Proof.
  intros Hs. unfold header_stream. destruct (requireResponse h); [|exact Hs].
  now apply lor_0x80_overflow.
Qed.

Ltac pack_fails c :=
  right; exists c;
  split; [reflexivity|split; [unfold packed_in_range; lia|intros; first [reflexivity|lia]]].

(** [encode] either returns the layout or raises the range error of the
    first argument that does not fit; the length is the first argument. *)
Lemma encode_cases (h : HsmsHeader) (d : list byte) :
  (packed_in_range h d /\ encode (mkPacket h d) = inr (wire h d))
  \/ (exists c, encode (mkPacket h d) = inl (struct_error_range c)
             /\ ~ packed_in_range h d
             /\ (payload_overflow d -> c = fmt_L)).
Proof.
  unfold encode, struct.pack. rewrite fmt_ok_packet_fmt.
  destruct (Z.leb_spec 0 (Z.of_nat (length (data (mkPacket h d))))); [|lia].
  fold (header_stream (header (mkPacket h d))).
  cbn [header data packet_fmt struct.pack_items struct.pack_item].
  unfold payload_overflow.
  destruct (pack_uint_cases fmt_L (10 + Z.of_nat (length d)))
    as [[R0 ->]|[R0 ->]]; cbn [mbind result_bind struct.item_size] in *.
  2:{ pack_fails fmt_L. }
  destruct (pack_uint_cases fmt_H (sessionID h))
    as [[R1 ->]|[R1 ->]]; cbn [mbind result_bind struct.item_size] in *.
  2:{ pack_fails fmt_H. }
  destruct (pack_uint_cases fmt_B (header_stream h))
    as [[R2 ->]|[R2 ->]]; cbn [mbind result_bind struct.item_size] in *.
  2:{ pack_fails fmt_B. }
  destruct (pack_uint_cases fmt_B (function h))
    as [[R3 ->]|[R3 ->]]; cbn [mbind result_bind struct.item_size] in *.
  2:{ pack_fails fmt_B. }
  destruct (pack_uint_cases fmt_B (pType h))
    as [[R4 ->]|[R4 ->]]; cbn [mbind result_bind struct.item_size] in *.
  2:{ pack_fails fmt_B. }
  destruct (pack_uint_cases fmt_B (sType h))
    as [[R5 ->]|[R5 ->]]; cbn [mbind result_bind struct.item_size] in *.
  2:{ pack_fails fmt_B. }
  destruct (pack_uint_cases fmt_L (system h))
    as [[R6 ->]|[R6 ->]]; cbn [mbind result_bind struct.item_size] in *.
  2:{ pack_fails fmt_L. }
  left. split; [unfold packed_in_range; lia|].
  cbn [mret result_ret].
  rewrite Nat2Z.id, Nat.sub_diag, firstn_all. cbn [replicate].
  unfold wire. now rewrite !app_nil_r.
Qed.

(** * The wire format *)

Lemma received_small_stream (h : HsmsHeader) :
  0 <= stream h <= 127 -> received h = h.
Proof.
  intros Hs. destruct h as [sid rr st fn pt sty sys]. unfold received.
  cbn [sessionID requireResponse stream function pType sType system] in *.
  rewrite low7_small, testbit7_small, orb_false_r by exact Hs. reflexivity.
Qed.

(** C1, as stated, fails: a header whose fields all fit their widths, with
    [stream = 131] and no response required, comes back from
    [decode (encode _)] with [requireResponse = True] and [stream = 3]. *)
Lemma roundtrip_loses_requireResponse :
  header_in_range sample_top_bit_header /\
  requireResponse sample_top_bit_header = false /\
  (encode (mkPacket sample_top_bit_header []) ≫= decode)
  = inr (mkPacket
           {| sessionID := 0; requireResponse := true; stream := 3;
              function := 0; pType := 0; sType := 0; system := 0 |} []).
Proof.
  split; [|split]; [|reflexivity|reflexivity].
  unfold header_in_range, sample_top_bit_header. cbn. lia.
Qed.

(** C1, amended: for every header whose fields fit their widths and every
    payload that fits the length field, [encode] returns and [decode] of
    its octets returns a packet with the same payload and the same
    [sessionID], [function], [pType], [sType] and [system]; [stream] comes
    back as its low seven bits and [requireResponse] as the flag or the top
    bit of [stream]. With [stream <= 127] the packet comes back unchanged. *)
Theorem decode_encode_roundtrip (h : HsmsHeader) (d : list byte) :
  header_in_range h -> ~ payload_overflow d ->
  exists text pkt,
    encode (mkPacket h d) = inr text /\
    decode text = inr pkt /\
    data pkt = d /\
    sessionID (header pkt) = sessionID h /\
    function (header pkt) = function h /\
    pType (header pkt) = pType h /\
    sType (header pkt) = sType h /\
    system (header pkt) = system h /\
    stream (header pkt) = Z.land (stream h) 0x7F /\
    requireResponse (header pkt)
    = requireResponse h || Z.testbit (stream h) 7 /\
    (stream h <= 127 -> pkt = mkPacket h d).
Proof.
  intros Hh Hd. exists (wire h d), (mkPacket (received h) d).
  split; [now apply encode_in_range|].
  split; [now apply decode_wire|].
  cbn [data header received sessionID function pType sType system stream
       requireResponse].
  repeat split.
  intros Hs. rewrite received_small_stream; [reflexivity|].
  destruct Hh as (_ & Hst & _). lia.
Qed.

(** The data header of stream 3 with the response flag set comes back as it
    was sent. *)
Lemma decode_encode_roundtrip_witness :
  exists text pkt,
    encode (mkPacket sample_data_header sample_payload) = inr text /\
    decode text = inr pkt /\
    pkt = mkPacket sample_data_header sample_payload.
Proof.
  assert (header_in_range sample_data_header) as Hh
    by (unfold header_in_range, sample_data_header; cbn; lia).
  assert (~ payload_overflow sample_payload) as Hd
    by (unfold payload_overflow, sample_payload; cbn; lia).
  destruct (decode_encode_roundtrip sample_data_header sample_payload Hh Hd)
    as (text & pkt & He & Hdec & _ & _ & _ & _ & _ & _ & _ & _ & Hsame).
  exists text, pkt. split; [exact He|]. split; [exact Hdec|].
  apply Hsame. cbn. lia.
Defined.

(** C2, as stated, fails: for [stream = 131] without the response flag the
    octet at offset 6 is [0x83], where the layout table gives
    [(131 & 0x7F) | 0 = 3]. *)
Lemma encode_keeps_stream_top_bit :
  encode (mkPacket sample_top_bit_header [])
  = inr [x00; x00; x00; x0a; x00; x00; x83; x00; x00; x00; x00; x00; x00; x00]
  /\ byte_to_Z x83 = 131
  /\ spec_stream_byte sample_top_bit_header = 3.
Proof. repeat split. Qed.

(** C2, amended: for every header whose fields fit their widths and every
    payload that fits the length field, [encode] returns exactly
    [14 + len(payload)] octets: the big-endian length [10 + len(payload)],
    the two octets of [sessionID], one stream octet equal to
    [stream | (0x80 if requireResponse else 0)], which is the octet of the
    layout table whenever [stream <= 127], the octets of [function],
    [pType] and [sType], the four octets of [system], then the payload. *)
Theorem encode_layout (h : HsmsHeader) (d : list byte) :
  header_in_range h -> ~ payload_overflow d ->
  exists text,
    encode (mkPacket h d) = inr text /\
    length text = (14 + length d)%nat /\
    field_at 0 4 text = 10 + Z.of_nat (length d) /\
    field_at 4 2 text = sessionID h /\
    field_at 6 1 text
    = Z.lor (stream h) (if requireResponse h then 0x80 else 0) /\
    (stream h <= 127 -> field_at 6 1 text = spec_stream_byte h) /\
    field_at 7 1 text = function h /\
    field_at 8 1 text = pType h /\
    field_at 9 1 text = sType h /\
    field_at 10 4 text = system h /\
    drop 14 text = d.
Proof.
  intros Hh Hd. exists (wire h d).
  destruct (field_at_wire h d Hh Hd)
    as (H0 & H4 & H6 & H7 & H8 & H9 & H10 & H14).
  assert (header_stream h
          = Z.lor (stream h) (if requireResponse h then 0x80 else 0)) as Hhs.
  { unfold header_stream. destruct (requireResponse h);
      [reflexivity | now rewrite Z.lor_0_r]. }
  split; [now apply encode_in_range|].
  split; [apply length_wire|].
  split; [exact H0|]. split; [exact H4|]. split; [congruence|].
  split; [|repeat (split; [assumption|]); assumption].
  intros Hs. rewrite H6, Hhs. unfold spec_stream_byte.
  rewrite low7_small; [reflexivity|]. destruct Hh as (_ & Hst & _). lia.
Qed.

(** The same header with three octets of payload: seventeen octets, [0x83]
    at offset 6. *)
Lemma encode_layout_witness :
  exists text,
    encode (mkPacket sample_data_header sample_payload) = inr text /\
    length text = 17%nat /\
    field_at 6 1 text = 0x83 /\
    drop 14 text = sample_payload.
Proof.
  assert (header_in_range sample_data_header) as Hh
    by (unfold header_in_range, sample_data_header; cbn; lia).
  assert (~ payload_overflow sample_payload) as Hd
    by (unfold payload_overflow, sample_payload; cbn; lia).
  destruct (encode_layout sample_data_header sample_payload Hh Hd)
    as (text & He & Hl & _ & _ & H6 & _ & _ & _ & _ & _ & H14).
  exists text. repeat split; assumption.
Defined.

(** C3, as stated, fails: the fourteen octets of the docstring of [decode]
    carry the length 11 where [len(text) - 4] is 10, and [decode] returns
    the packet. *)
Lemma decode_accepts_length_mismatch :
  field_at 0 4 sample_docstring_text = 11 /\
  Z.of_nat (length sample_docstring_text) - 4 = 10 /\
  decode sample_docstring_text
  = inr (mkPacket
           {| sessionID := 65535; requireResponse := false; stream := 0;
              function := 0; pType := 0; sType := 5; system := 2 |} []).
Proof. repeat split. Qed.

(** C3, amended: [decode] raises [struct.error] for every text shorter than
    14 octets, in particular for every text of 13; for every text of 14
    octets or more it returns a packet whose payload is the octets from
    offset 14 on, and the four octets of the length field are not looked
    at: any other four in their place give the same packet. *)
Theorem decode_checks_size_only (text : list byte) :
  ((length text < 14)%nat -> decode text = inl struct_error_format) /\
  ((14 <= length text)%nat ->
   exists pkt,
     decode text = inr pkt /\
     data pkt = drop 14 text /\
     forall n : Z, decode (to_be 4 n ++ drop 4 text) = inr pkt).
Proof.
  split; [apply decode_short|].
  intros Hlen. eexists. split; [now apply decode_long|].
  split; [reflexivity|].
  intros n. rewrite decode_long
    by (rewrite length_app, length_to_be, length_drop; lia).
  unfold field_at.
  rewrite !(drop_app_ge (to_be 4 n)) by (rewrite length_to_be; lia).
  rewrite length_to_be, !drop_drop. reflexivity.
Qed.

(** Thirteen octets are refused; the docstring's fourteen are read, with
    the length 11 they carry or with the length 10 in its place. *)
Lemma decode_checks_size_only_witness :
  decode sample_short_text = inl struct_error_format /\
  exists pkt,
    decode sample_docstring_text = inr pkt /\
    data pkt = [] /\
    decode (to_be 4 10 ++ drop 4 sample_docstring_text) = inr pkt.
Proof.
  split.
  - apply (proj1 (decode_checks_size_only sample_short_text)).
    unfold sample_short_text. cbn [length]. lia.
  - destruct (proj2 (decode_checks_size_only sample_docstring_text))
      as (pkt & Hdec & Hdata & Hany).
    + unfold sample_docstring_text. cbn [length]. lia.
    + exists pkt. split; [exact Hdec|]. split; [exact Hdata|]. apply Hany.
Defined.

(** C4: [encode] neither masks nor truncates. A header with a field above
    its width ([sessionID] above 16 bits, [system] above 32, [stream],
    [function], [pType] or [sType] above 8) makes it raise the range error
    of [struct.pack], and so does a payload whose length overflows the
    32-bit length field, then with the code [L] of that field. Both errors
    are the one exception class [struct.error] of the code. *)
Theorem encode_rejects_overflow (h : HsmsHeader) (d : list byte) :
  (field_overflow h ->
   exists c, encode (mkPacket h d) = inl (struct_error_range c)) /\
  (payload_overflow d ->
   encode (mkPacket h d) = inl (struct_error_range fmt_L)).
Proof.
  destruct (encode_cases h d) as [[Hin _]|(c & He & Hout & Hpay)].
  - destruct Hin as (Hl & Hsid & Hst & Hfn & Hpt & Hsty & Hsys).
    split.
    + intros [Hf|[Hf|[Hf|[Hf|[Hf|Hf]]]]]; try lia.
      apply header_stream_overflow in Hf. lia.
    + unfold payload_overflow. lia.
  - split.
    + intros _. exists c. exact He.
    + intros Hp. rewrite <- (Hpay Hp). exact He.
Qed.

(** A session identifier of seventeen bits, and a payload of [2^32 - 10]
    octets. *)
Lemma encode_rejects_overflow_witness :
  (exists c,
     encode (mkPacket sample_wide_header []) = inl (struct_error_range c)) /\
  encode (mkPacket sample_data_header sample_huge_payload)
  = inl (struct_error_range fmt_L).
Proof.
  split.
  - apply (proj1 (encode_rejects_overflow sample_wide_header [])).
    left. cbn [sample_wide_header HsmsHeader_init sessionID]. lia.
  - apply (proj2 (encode_rejects_overflow sample_data_header
                    sample_huge_payload)).
    unfold payload_overflow, sample_huge_payload.
    rewrite length_replicate, Z2Nat.id by lia. lia.
Defined.

(** * The header constructors *)

(** C5: whatever the transaction identifier, each control header has
    [sessionID = 0xFFFF] and [pType = 0], and the data header has the
    session identifier it was given and [pType = 0]. *)
Theorem variant_session_and_ptype
    (system s_type reason stream function session_id : Z)
    (require_response : bool) :
  (sessionID (HsmsSelectReqHeader system) = 0xFFFF
   /\ pType (HsmsSelectReqHeader system) = 0) /\
  (sessionID (HsmsSelectRspHeader system) = 0xFFFF
   /\ pType (HsmsSelectRspHeader system) = 0) /\
  (sessionID (HsmsDeselectReqHeader system) = 0xFFFF
   /\ pType (HsmsDeselectReqHeader system) = 0) /\
  (sessionID (HsmsDeselectRspHeader system) = 0xFFFF
   /\ pType (HsmsDeselectRspHeader system) = 0) /\
  (sessionID (HsmsLinktestReqHeader system) = 0xFFFF
   /\ pType (HsmsLinktestReqHeader system) = 0) /\
  (sessionID (HsmsLinktestRspHeader system) = 0xFFFF
   /\ pType (HsmsLinktestRspHeader system) = 0) /\
  (sessionID (HsmsRejectReqHeader system s_type reason) = 0xFFFF
   /\ pType (HsmsRejectReqHeader system s_type reason) = 0) /\
  (sessionID (HsmsSeparateReqHeader system) = 0xFFFF
   /\ pType (HsmsSeparateReqHeader system) = 0) /\
  (sessionID
     (HsmsStreamFunctionHeader system stream function require_response
        session_id) = session_id
   /\ pType
        (HsmsStreamFunctionHeader system stream function require_response
           session_id) = 0).
Proof. repeat split. Qed.

(** The transaction identifier and the message type of each variant. *)
Lemma variant_system_and_stype (tid s_type reason : Z) :
  map (fun h => (sType h, system h))
    [HsmsSelectReqHeader tid; HsmsSelectRspHeader tid;
     HsmsDeselectReqHeader tid; HsmsDeselectRspHeader tid;
     HsmsLinktestReqHeader tid; HsmsLinktestRspHeader tid;
     HsmsRejectReqHeader tid s_type reason; HsmsSeparateReqHeader tid]
  = [(1, tid); (2, tid); (3, tid); (4, tid); (5, tid); (6, tid); (7, tid);
     (9, tid)].
Proof. reflexivity. Qed.

(** C6: a linktest request with transaction identifier 2 and no payload
    encodes to [00 00 00 0A FF FF 00 00 00 05 00 00 00 02]. *)
Theorem encode_linktest_request :
  encode (HsmsPacket_init (Some (HsmsLinktestReqHeader 2)) [])
  = inr [x00; x00; x00; x0a; xff; xff; x00; x00; x00; x05; x00; x00; x00; x02].
Proof. reflexivity. Qed.

(** C7: the reject header has [sType = 7], carries the type of the rejected
    message in [stream] and the reason in [function]. *)
Theorem reject_header_fields (system s_type reason : Z) :
  sType (HsmsRejectReqHeader system s_type reason) = 7 /\
  stream (HsmsRejectReqHeader system s_type reason) = s_type /\
  function (HsmsRejectReqHeader system s_type reason) = reason.
Proof. repeat split. Qed.

(** C10: a header that [decode] returns has [0 <= stream <= 127], its
    [stream] being the low seven bits of the octet at offset 6 and its
    [requireResponse] the top bit of that octet; [encode] for its part
    accepts a header with [stream = 131] and puts [0x83] on the wire. *)
Theorem decode_stream_seven_bits (text : list byte) (pkt : HsmsPacket) :
  decode text = inr pkt ->
  (exists b,
     text !! 6%nat = Some b /\
     stream (header pkt) = Z.land (byte_to_Z b) 0x7F /\
     requireResponse (header pkt) = Z.testbit (byte_to_Z b) 7) /\
  0 <= stream (header pkt) <= 127 /\
  (128 <= stream sample_top_bit_header /\
   exists sent,
     encode (mkPacket sample_top_bit_header []) = inr sent /\
     sent !! 6%nat = Some x83).
Proof.
  intros Hdec.
  destruct (Nat.lt_ge_cases (length text) 14) as [Hlt|Hge].
  { rewrite decode_short in Hdec by exact Hlt. discriminate Hdec. }
  rewrite decode_long in Hdec by exact Hge.
  injection Hdec as <-. cbn [header stream requireResponse].
  destruct (lookup_lt_is_Some_2 text 6) as [b Hb]; [lia|].
  rewrite (field_at_byte 6 text b Hb).
  split; [exists b; repeat split; exact Hb|].
  split; [apply low7_range|].
  split; [cbn; lia|].
  eexists. split; reflexivity.
Qed.

(** The docstring's fourteen octets. *)
Lemma decode_stream_seven_bits_witness :
  exists pkt,
    decode sample_docstring_text = inr pkt /\
    0 <= stream (header pkt) <= 127.
Proof.
  eexists. split; [reflexivity|].
  eapply (decode_stream_seven_bits sample_docstring_text). reflexivity.
Defined.

(** * The dispatch *)

(** Running a method: unfold the plumbing of [M]. *)
Ltac run_M :=
  unfold mbind, M_bind, get_self, log, lift, mret, M_ret; cbn beta iota.

Section Dispatch.

Context {cls obj : Type} `{SecsFunction cls obj}.

(** The lookup the two methods share, on the table they picked. *)
Lemma registered_None (table : gmap Z (gmap Z cls)) (s f : Z) :
  registered table s f = None <->
  table !! s = None
  \/ exists functions, table !! s = Some functions /\ functions !! f = None.
Proof.
  unfold registered. destruct (table !! s) as [functions|]; cbn.
  - split; [intros Hf; right; eauto|].
    intros [Hs|(functions' & Hs & Hf)]; [discriminate Hs|].
    now injection Hs as ->.
  - split; [now left | reflexivity].
Qed.

Lemma streamFunction_run (w : world cls) (s f : Z) :
  streamFunction s f w
  = match registered
            (if isHost (self w) then secsStreamsFunctionsHost (self w)
             else secsStreamsFunctionsEquipment (self w)) s f with
    | Some c => (inr (Some c), w)
    | None =>
        (inr None,
         mkWorld (self w) (logging w ++ [warning_unknown_function s f]))
    end.
Proof.
  unfold streamFunction, registered. run_M.
  destruct (isHost (self w));
    (match goal with |- context [?t !! s] => destruct (t !! s) as [fs|] end;
     cbn; [destruct (fs !! f); reflexivity | reflexivity]).
Qed.

Lemma secsDecode_run (p : HsmsPacket) (w : world cls) :
  secsDecode p w
  = match registered
            (if isHost (self w) then secsStreamsFunctionsEquipment (self w)
             else secsStreamsFunctionsHost (self w))
            (stream (header p)) (function (header p)) with
    | None =>
        (inr None,
         mkWorld (self w)
           (logging w
              ++ [warning_unknown_function (stream (header p))
                    (function (header p))]))
    | Some c =>
        let started :=
          logging w
            ++ [debug_decoding (stream (header p)) (function (header p))
                  (cls_name c)] in
        match obj_decode (cls_call c) (data p) with
        | inl e => (inl e, mkWorld (self w) started)
        | inr o =>
            (inr (Some o),
             mkWorld (self w) (started ++ [debug_decoded (obj_format o)]))
        end
    end.
Proof.
  unfold secsDecode, registered. run_M.
  destruct (isHost (self w));
    (match goal with
     | |- context [?t !! stream (header p)] =>
         destruct (t !! stream (header p)) as [fs|]
     end;
     cbn; [|reflexivity];
     destruct (fs !! function (header p)) as [c|]; [|reflexivity];
     cbn; destruct (obj_decode (cls_call c) (data p)); reflexivity).
Qed.

(** C8, amended: where the table of the handler's own role has no class
    for [(stream, function)], [streamFunction] returns [None] and raises
    nothing; it leaves the handler and both tables as they were and
    appends one warning to the log, so the same call made again returns
    [None] again. *)
Theorem streamFunction_not_found (w : world cls) (s f : Z) :
  registered
    (if isHost (self w) then secsStreamsFunctionsHost (self w)
     else secsStreamsFunctionsEquipment (self w)) s f = None ->
  streamFunction s f w
  = (inr None,
     mkWorld (self w) (logging w ++ [warning_unknown_function s f])) /\
  fst (streamFunction s f (snd (streamFunction s f w))) = inr None /\
  self (snd (streamFunction s f (snd (streamFunction s f w)))) = self w.
Proof.
  intros Hnone.
  assert (streamFunction s f w
          = (inr None,
             mkWorld (self w) (logging w ++ [warning_unknown_function s f])))
    as Hfirst by (rewrite streamFunction_run, Hnone; reflexivity).
  split; [exact Hfirst|].
  rewrite Hfirst. cbn [snd].
  rewrite streamFunction_run. cbn [self]. rewrite Hnone.
  split; reflexivity.
Qed.

(** C9: [secsDecode] looks [(stream, function)] of the packet up in the
    table of the other role, the equipment's for a host and the host's
    for an equipment. With a class there it instantiates the class, runs
    the instance's [decode] on the payload and returns the instance (or
    what that [decode] raises); with none it returns [None] and raises
    nothing. The handler is left as it was. *)
Theorem secsDecode_opposite_table (p : HsmsPacket) (w : world cls) :
  let table :=
    if isHost (self w) then secsStreamsFunctionsEquipment (self w)
    else secsStreamsFunctionsHost (self w) in
  fst (secsDecode p w)
  = match registered table (stream (header p)) (function (header p)) with
    | Some c => Some <$> obj_decode (cls_call c) (data p)
    | None => inr None
    end
  /\ self (snd (secsDecode p w)) = self w.
Proof.
  intros table. subst table. rewrite secsDecode_run.
  destruct (registered _ _ _) as [c|]; [|split; reflexivity].
  cbn zeta. destruct (obj_decode (cls_call c) (data p)); split; reflexivity.
Qed.

End Dispatch.

(** C8, as stated, fails: the lookup of [(99, 99)] in empty tables returns
    [None] and leaves a warning in the log, so the state after the call is
    not the state before it. *)
Lemma streamFunction_writes_log :
  streamFunction 99 99 sample_empty
  = (inr None,
     mkWorld (self sample_empty) [warning_unknown_function 99 99]) /\
  snd (streamFunction 99 99 sample_empty) <> sample_empty.
Proof.
  assert (streamFunction 99 99 sample_empty
          = (inr None,
             mkWorld (self sample_empty) [warning_unknown_function 99 99]))
    as Hrun.
  { rewrite streamFunction_run. unfold registered, sample_empty.
    cbn [self isHost secsStreamsFunctionsHost logging].
    rewrite lookup_empty. reflexivity. }
  split; [exact Hrun|]. rewrite Hrun. discriminate.
Qed.

(** Stream 99, function 99, against empty tables, twice. *)
Lemma streamFunction_not_found_witness :
  streamFunction 99 99 sample_empty
  = (inr None,
     mkWorld (self sample_empty) [warning_unknown_function 99 99]) /\
  fst (streamFunction 99 99 (snd (streamFunction 99 99 sample_empty)))
  = inr None.
Proof.
  destruct (streamFunction_not_found sample_empty 99 99) as (H1 & H2 & _).
  - unfold registered, sample_empty.
    cbn [self isHost secsStreamsFunctionsHost]. rewrite lookup_empty.
    reflexivity.
  - split; [exact H1 | exact H2].
Defined.

(** A host reads an incoming S1F2 with the equipment's class, and finds no
    class for an incoming S1F1, which only its own table lists; for an
    equipment it is the other way round. *)
Example host_decodes_with_equipment_table :
  fst (secsDecode
         (mkPacket (HsmsStreamFunctionHeader 7 1 2 false 0) sample_payload)
         sample_host)
  = inr (Some (secsS01F02, sample_payload)) /\
  fst (secsDecode
         (mkPacket (HsmsStreamFunctionHeader 7 1 1 true 0) sample_payload)
         sample_host)
  = inr None.
Proof. split; vm_compute; reflexivity. Qed.

Example equipment_decodes_with_host_table :
  fst (secsDecode
         (mkPacket (HsmsStreamFunctionHeader 7 1 1 true 0) sample_payload)
         sample_equipment)
  = inr (Some (secsS01F01, sample_payload)) /\
  fst (secsDecode
         (mkPacket (HsmsStreamFunctionHeader 7 1 2 false 0) sample_payload)
         sample_equipment)
  = inr None.
Proof. split; vm_compute; reflexivity. Qed.

(** * Beyond the wire format of one packet *)

(** ** More on octets *)


Lemma from_be_acc_shift (acc : Z) (bs : list byte) :
  from_be_acc acc bs = acc * 2 ^ (8 * Z.of_nat (length bs)) + from_be bs.
Proof.
  unfold from_be. revert acc.
  induction bs as [|b bs IH]; intros acc.
  - cbn. lia.
  - cbn [from_be_acc fold_left length].
    fold (from_be_acc (acc * 256 + byte_to_Z b) bs).
    fold (from_be_acc (0 * 256 + byte_to_Z b) bs).
    rewrite (IH (acc * 256 + byte_to_Z b)), (IH (0 * 256 + byte_to_Z b)).
    replace (8 * Z.of_nat (S (length bs))) with (8 * Z.of_nat (length bs) + 8)
      by lia.
    rewrite Z.pow_add_r by lia. change (2 ^ 8) with 256. lia.
Qed.

Lemma from_be_range (bs : list byte) :
  0 <= from_be bs < 2 ^ (8 * Z.of_nat (length bs)).
Proof.
  induction bs as [|b bs IH].
  - cbn. lia.
  - unfold from_be. cbn [from_be_acc fold_left length].
    fold (from_be_acc (0 * 256 + byte_to_Z b) bs).
    rewrite from_be_acc_shift.
    replace (8 * Z.of_nat (S (length bs))) with (8 * Z.of_nat (length bs) + 8)
      by lia.
    rewrite Z.pow_add_r by lia. change (2 ^ 8) with 256.
    pose proof (byte_to_Z_range b). nia.
Qed.



(** An octet is its low seven bits and its top bit. *)
Lemma octet_split (s : Z) :
  0 <= s < 256 ->
  Z.lor (Z.land s 0x7F) (if Z.testbit s 7 then 0x80 else 0) = s.
Proof.
  intros Hs.
  assert (Z.land (Z.land s 0x7F) (if Z.testbit s 7 then 0x80 else 0) = 0)
    as Hdisj.
  { rewrite <- Z.land_assoc. destruct (Z.testbit s 7); [|apply Z.land_0_r].
    change (Z.land 0x7F 0x80) with 0. apply Z.land_0_r. }
  pose proof (Z.add_lor_land (Z.land s 0x7F)
                (if Z.testbit s 7 then 0x80 else 0)) as Hadd.
  rewrite Hdisj, Z.add_0_r in Hadd. rewrite Hadd.
  change (Z.land s 0x7F) with (Z.land s (Z.ones 7)).
  rewrite Z.land_ones by lia. rewrite Z.testbit_eqb by lia.
  change (2 ^ 7) with 128.
  destruct (Z.eqb_spec (s / 128 mod 2) 1) as [E|E];
    Z.div_mod_to_equations; lia.
Qed.

(** ** The domain of [encode] *)

Lemma header_stream_range_inv (h : HsmsHeader) :
  0 <= header_stream h < 2 ^ 8 -> 0 <= stream h < 2 ^ 8.
Proof.
  unfold header_stream. destruct (requireResponse h); [|trivial].
  intros [Hlo Hhi]. apply Z.lor_nonneg in Hlo as [Hlo _].
  split; [exact Hlo|].
  destruct (Z_lt_dec (stream h) (2 ^ 8)) as [Hlt|Hge]; [exact Hlt|].
  assert (2 ^ 8 <= Z.lor (stream h) 0x80) by (apply lor_0x80_overflow; lia).
  lia.
Qed.

Lemma packed_in_range_iff (h : HsmsHeader) (d : list byte) :
  packed_in_range h d <-> header_in_range h /\ ~ payload_overflow d.
Proof.
  unfold packed_in_range, header_in_range, payload_overflow. split.
  - intros (Hl & Hsid & Hst & Hrest). apply header_stream_range_inv in Hst.
    repeat split; try tauto; lia.
  - intros ((Hsid & Hst & Hrest) & Hl). apply header_stream_range in Hst.
    repeat split; try tauto; lia.
Qed.

(** X1: [encode] returns octets exactly for the headers whose six fields
    lie between 0 and the maximum of their width and the payloads that fit
    the length field; a negative field makes it raise like one too large. *)
Theorem encode_succeeds_iff (h : HsmsHeader) (d : list byte) :
  (exists text, encode (mkPacket h d) = inr text)
  <-> header_in_range h /\ ~ payload_overflow d.
Proof.
  rewrite <- packed_in_range_iff.
  destruct (encode_cases h d) as [[Hin He]|(c & He & Hout & _)].
  - split; [intros _; exact Hin | intros _; eauto].
  - split; [|intros Hin; contradiction].
    intros [text Ht]. rewrite He in Ht. discriminate Ht.
Qed.

(** ** Headers the wire cannot tell apart *)

Lemma header_stream_received (h : HsmsHeader) :
  0 <= stream h < 2 ^ 8 -> header_stream (received h) = header_stream h.
Proof.
  intros Hs. change (2 ^ 8) with 256 in Hs.
  pose proof (octet_split (stream h) Hs) as Hsplit.
  unfold header_stream, received. cbn [requireResponse stream].
  destruct (requireResponse h); cbn [orb].
  - rewrite <- Hsplit at 2. rewrite <- Z.lor_assoc.
    destruct (Z.testbit (stream h) 7); reflexivity.
  - destruct (Z.testbit (stream h) 7); [exact Hsplit|].
    now rewrite Z.lor_0_r in Hsplit.
Qed.

Lemma wire_received (h : HsmsHeader) (d : list byte) :
  0 <= stream h < 2 ^ 8 -> wire (received h) d = wire h d.
Proof.
  intros Hs. unfold wire. rewrite header_stream_received by exact Hs.
  reflexivity.
Qed.

(** X2: two packets that [encode] accepts give the same octets exactly when
    their payloads are equal and their headers agree after folding the top
    bit of [stream] into [requireResponse]. *)
Theorem encode_equal_iff (h h' : HsmsHeader) (d d' : list byte) :
  header_in_range h -> header_in_range h' ->
  ~ payload_overflow d -> ~ payload_overflow d' ->
  encode (mkPacket h d) = encode (mkPacket h' d')
  <-> received h = received h' /\ d = d'.
Proof.
  intros Hh Hh' Hd Hd'.
  rewrite (encode_in_range h d Hh Hd), (encode_in_range h' d' Hh' Hd').
  split.
  - intros Heq. apply (inj inr) in Heq.
    pose proof (decode_wire h d Hh Hd) as Hdec.
    rewrite Heq, (decode_wire h' d' Hh' Hd') in Hdec.
    apply (inj inr) in Hdec.
    split; symmetry; [exact (f_equal header Hdec) | exact (f_equal data Hdec)].
  - intros [Hrec <-]. f_equal.
    rewrite <- (wire_received h d), <- (wire_received h' d), Hrec;
      [reflexivity| |]; [destruct Hh' as (_ & Hst & _)
                        |destruct Hh as (_ & Hst & _)]; exact Hst.
Qed.

(** The two sample headers, with and without the top bit folded. *)
Lemma encode_equal_iff_witness :
  encode (mkPacket sample_top_bit_header sample_payload)
  = encode (mkPacket sample_folded_header sample_payload)
  /\ sample_top_bit_header <> sample_folded_header.
Proof.
  assert (header_in_range sample_top_bit_header) as Hh
    by (unfold header_in_range, sample_top_bit_header; cbn; lia).
  assert (header_in_range sample_folded_header) as Hh'
    by (unfold header_in_range, sample_folded_header; cbn; lia).
  assert (~ payload_overflow sample_payload) as Hd
    by (unfold payload_overflow, sample_payload; cbn; lia).
  split; [|discriminate].
  apply (proj2 (encode_equal_iff sample_top_bit_header sample_folded_header
                  sample_payload sample_payload Hh Hh' Hd Hd)).
  split; reflexivity.
Defined.

(** ** What [decode] returns *)

Lemma length_slice (k n : nat) (text : list byte) :
  (k + n <= length text)%nat -> length (take n (drop k text)) = n.
Proof. intros Hle. rewrite length_take, length_drop. lia. Qed.

Lemma field_at_range (k n : nat) (text : list byte) :
  (k + n <= length text)%nat -> 0 <= field_at k n text < 2 ^ (8 * Z.of_nat n).
Proof.
  intros Hle. unfold field_at.
  pose proof (from_be_range (take n (drop k text))) as Hr.
  now rewrite length_slice in Hr.
Qed.



Lemma decode_inr_length (text : list byte) (pkt : HsmsPacket) :
  decode text = inr pkt -> (14 <= length text)%nat.
Proof.
  intros Hdec. destruct (Nat.lt_ge_cases (length text) 14) as [Hlt|Hge];
    [|exact Hge].
  rewrite decode_short in Hdec by exact Hlt. discriminate Hdec.
Qed.

(** X3: every header that [decode] returns has all six fields within their
    widths, and the payload is the text less its fourteen octets of
    header. *)
Theorem decode_in_range (text : list byte) (pkt : HsmsPacket) :
  decode text = inr pkt ->
  header_in_range (header pkt)
  /\ length text = (14 + length (data pkt))%nat.
Proof.
  intros Hdec. pose proof (decode_inr_length text pkt Hdec) as Hlen.
  rewrite decode_long in Hdec by exact Hlen. apply (inj inr) in Hdec.
  subst pkt. cbn [header data]. split.
  - unfold header_in_range.
    cbn [sessionID stream function pType sType system].
    pose proof (low7_range (field_at 6 1 text)) as Hst.
    pose proof (field_at_range 4 2 text) as Hsid.
    pose proof (field_at_range 7 1 text) as Hfn.
    pose proof (field_at_range 8 1 text) as Hpt.
    pose proof (field_at_range 9 1 text) as Hsty.
    pose proof (field_at_range 10 4 text) as Hsys.
    change (8 * Z.of_nat 1) with 8 in *. change (8 * Z.of_nat 2) with 16 in *.
    change (8 * Z.of_nat 4) with 32 in *.
    split; [apply Hsid; lia|]. split; [change (2 ^ 8) with 256; lia|].
    split; [apply Hfn; lia|]. split; [apply Hpt; lia|].
    split; [apply Hsty; lia | apply Hsys; lia].
  - rewrite length_drop. lia.
Qed.

Lemma decode_in_range_witness :
  exists pkt,
    decode sample_docstring_text = inr pkt /\ header_in_range (header pkt).
Proof.
  eexists. split; [reflexivity|].
  eapply (decode_in_range sample_docstring_text). reflexivity.
Defined.

(** ** [encode] after [decode] *)





(** ** Texts longer or shorter than the packet *)

Lemma wire_frame (h : HsmsHeader) (d : list byte) :
  wire h d = frame (10 + Z.of_nat (length d)) h d.
Proof. reflexivity. Qed.

Lemma length_frame (n : Z) (h : HsmsHeader) (payload : list byte) :
  length (frame n h payload) = (14 + length payload)%nat.
Proof. unfold frame. rewrite !length_app, !length_to_be. lia. Qed.

Lemma frame_app (n : Z) (h : HsmsHeader) (payload extra : list byte) :
  frame n h payload ++ extra = frame n h (payload ++ extra).
Proof. unfold frame. now rewrite <- !app_assoc. Qed.

Lemma take_frame (k : nat) (n : Z) (h : HsmsHeader) (payload : list byte) :
  (14 <= k)%nat -> take k (frame n h payload) = frame n h (take (k - 14) payload).
Proof.
  intros Hk. unfold frame.
  repeat (rewrite take_app_ge by (rewrite length_to_be; lia);
          rewrite length_to_be; f_equal).
  f_equal. lia.
Qed.

(** The length field plays no part in what [decode] returns. *)
Lemma decode_frame (n : Z) (h : HsmsHeader) (payload : list byte) :
  header_in_range h ->
  decode (frame n h payload) = inr (mkPacket (received h) payload).
Proof.
  intros (Hsid & Hst & Hfn & Hpt & Hsty & Hsys).
  pose proof (header_stream_range h Hst) as Hhs.
  rewrite decode_long by (rewrite length_frame; lia).
  assert (field_at 4 2 (frame n h payload) = sessionID h) as ->
    by (unfold frame; skip_fields; apply field_at_here; lia).
  assert (field_at 6 1 (frame n h payload) = header_stream h) as ->
    by (unfold frame; skip_fields; apply field_at_here; lia).
  assert (field_at 7 1 (frame n h payload) = function h) as ->
    by (unfold frame; skip_fields; apply field_at_here; lia).
  assert (field_at 8 1 (frame n h payload) = pType h) as ->
    by (unfold frame; skip_fields; apply field_at_here; lia).
  assert (field_at 9 1 (frame n h payload) = sType h) as ->
    by (unfold frame; skip_fields; apply field_at_here; lia).
  assert (field_at 10 4 (frame n h payload) = system h) as ->
    by (unfold frame; skip_fields; apply field_at_here; lia).
  assert (drop 14 (frame n h payload) = payload) as ->.
  { unfold frame.
    repeat (rewrite drop_app_ge by (rewrite length_to_be; lia);
            rewrite length_to_be; cbn [Nat.sub]).
    apply drop_0. }
  unfold received, header_stream. do 2 f_equal.
  destruct (requireResponse h); cbn [orb].
  - rewrite testbit7_lor_0x80, low7_lor_0x80. reflexivity.
  - reflexivity.
Qed.

(** X5: [decode] takes the octets [encode] produced with anything appended
    or with the end cut off. Appended octets become part of the payload; a
    text cut to [k >= 14] octets gives the same header with the payload cut
    to [k - 14]; cut below 14 it raises. *)
Theorem decode_resized_encoding (h : HsmsHeader) (d : list byte) :
  header_in_range h -> ~ payload_overflow d ->
  exists text,
    encode (mkPacket h d) = inr text /\
    (forall extra,
       decode (text ++ extra) = inr (mkPacket (received h) (d ++ extra))) /\
    (forall k, (14 <= k)%nat ->
       decode (take k text) = inr (mkPacket (received h) (take (k - 14) d))) /\
    (forall k, (k < 14)%nat -> decode (take k text) = inl struct_error_format).
Proof.
  intros Hh Hd. exists (wire h d).
  split; [now apply encode_in_range|]. rewrite wire_frame.
  split; [|split].
  - intros extra. rewrite frame_app. now apply decode_frame.
  - intros k Hk. rewrite take_frame by exact Hk. now apply decode_frame.
  - intros k Hk. apply decode_short. rewrite length_take. lia.
Qed.

(** The sample packet with one octet more, and with its last octet
    missing. *)
Lemma decode_resized_encoding_witness :
  exists text,
    encode (mkPacket sample_data_header sample_payload) = inr text /\
    decode (text ++ [xff])
    = inr (mkPacket sample_data_header [x01; x02; x03; xff]) /\
    decode (take 16 text) = inr (mkPacket sample_data_header [x01; x02]).
Proof.
  assert (header_in_range sample_data_header) as Hh
    by (unfold header_in_range, sample_data_header; cbn; lia).
  assert (~ payload_overflow sample_payload) as Hd
    by (unfold payload_overflow, sample_payload; cbn; lia).
  destruct (decode_resized_encoding sample_data_header sample_payload Hh Hd)
    as (text & He & Hmore & Hless & _).
  exists text. split; [exact He|]. split.
  - rewrite Hmore. reflexivity.
  - rewrite Hless by lia. reflexivity.
Defined.

(** ** Control headers on the wire *)

(** X6: for every transaction identifier of 32 bits, a packet made of a
    select, deselect, linktest or separate header and no payload encodes to
    the fourteen octets [00 00 00 0A FF FF 00 00 00 <sType>] followed by the
    identifier, and [decode] gives the packet back. *)
Theorem control_header_on_wire (ctor : Z -> HsmsHeader) (s_type tid : Z) :
  In (ctor, s_type) control_variants ->
  0 <= tid < 2 ^ 32 ->
  encode (HsmsPacket_init (Some (ctor tid)) [])
  = inr ([x00; x00; x00; x0a; xff; xff; x00; x00; x00; Z_to_byte s_type]
           ++ to_be 4 tid)
  /\ (encode (HsmsPacket_init (Some (ctor tid)) []) ≫= decode)
     = inr (HsmsPacket_init (Some (ctor tid)) []).
Proof.
  intros Hin Htid.
  assert (ctor tid = control_init tid 0 0 s_type /\ 0 <= s_type < 2 ^ 8)
    as [Hctor Hst].
  { cbn [control_variants In] in Hin.
    repeat (destruct Hin as [Hin|Hin];
            [injection Hin as <- <-; split; [reflexivity|lia]|]).
    contradiction. }
  assert (header_in_range (ctor tid)) as Hh
    by (rewrite Hctor; unfold header_in_range; cbn; lia).
  assert (~ payload_overflow []) as Hd by (unfold payload_overflow; cbn; lia).
  cbn [HsmsPacket_init].
  rewrite (encode_in_range (ctor tid) [] Hh Hd). split.
  - rewrite Hctor. reflexivity.
  - cbn [mbind result_bind]. rewrite (decode_wire (ctor tid) [] Hh Hd).
    rewrite received_small_stream; [reflexivity|].
    rewrite Hctor. cbn. lia.
Qed.

Lemma control_header_on_wire_witness :
  encode (HsmsPacket_init (Some (HsmsSeparateReqHeader 0x01020304)) [])
  = inr [x00; x00; x00; x0a; xff; xff; x00; x00; x00; x09;
         x01; x02; x03; x04].
Proof.
  apply (control_header_on_wire HsmsSeparateReqHeader 9 0x01020304).
  - cbn. tauto.
  - lia.
Defined.

Lemma low7_large (s : Z) :
  128 <= s < 256 -> Z.land s 0x7F = s - 128 /\ Z.testbit s 7 = true.
Proof.
  intros Hs. split.
  - change (Z.land s 0x7F) with (Z.land s (Z.ones 7)).
    rewrite Z.land_ones by lia. change (2 ^ 7) with 128.
    Z.div_mod_to_equations. lia.
  - apply Z.testbit_true; [lia|]. change (2 ^ 7) with 128.
    Z.div_mod_to_equations. lia.
Qed.

(** X7: a reject header with a 32-bit transaction identifier and a type
    and a reason of one octet each encodes with the type at offset 6, the
    reason at offset 7 and 7 at offset 9. [decode] gives the reason back;
    it gives the type back when the type is below 128, and otherwise the
    type less 128 with [requireResponse] set. *)
Theorem reject_header_on_wire (tid s_type reason : Z) :
  0 <= tid < 2 ^ 32 -> 0 <= s_type < 2 ^ 8 -> 0 <= reason < 2 ^ 8 ->
  exists text pkt,
    encode (mkPacket (HsmsRejectReqHeader tid s_type reason) []) = inr text /\
    text !! 6%nat = Some (Z_to_byte s_type) /\
    text !! 7%nat = Some (Z_to_byte reason) /\
    text !! 9%nat = Some x07 /\
    decode text = inr pkt /\
    function (header pkt) = reason /\
    sType (header pkt) = 7 /\
    (s_type < 128 ->
     pkt = mkPacket (HsmsRejectReqHeader tid s_type reason) []) /\
    (128 <= s_type ->
     stream (header pkt) = s_type - 128
     /\ requireResponse (header pkt) = true).
Proof.
  intros Htid Hst Hreason.
  set (h := HsmsRejectReqHeader tid s_type reason).
  assert (header_in_range h) as Hh
    by (unfold header_in_range, h; cbn; lia).
  assert (~ payload_overflow []) as Hd by (unfold payload_overflow; cbn; lia).
  exists (wire h []), (mkPacket (received h) []).
  split; [now apply encode_in_range|].
  do 3 (split; [reflexivity|]).
  split; [now apply decode_wire|].
  do 2 (split; [reflexivity|]).
  change (2 ^ 8) with 256 in Hst. split.
  - intros Hlow. rewrite received_small_stream; [reflexivity|].
    unfold h. cbn. lia.
  - intros Hhigh. cbn [header received stream requireResponse].
    unfold h. cbn [HsmsRejectReqHeader control_init set_sType set_pType
      set_function set_stream set_requireResponse HsmsHeader_init stream
      requireResponse sessionID function pType sType system].
    destruct (low7_large s_type) as [-> ->]; [lia|]. split; reflexivity.
Qed.

Lemma reject_header_on_wire_witness :
  exists text,
    encode (mkPacket (HsmsRejectReqHeader 17 3 4) []) = inr text /\
    decode text = inr (mkPacket (HsmsRejectReqHeader 17 3 4) []).
Proof.
  destruct (reject_header_on_wire 17 3 4)
    as (text & pkt & He & _ & _ & _ & Hdec & _ & _ & Hsame & _); try lia.
  exists text. split; [exact He|]. rewrite Hdec, Hsame by lia. reflexivity.
Defined.

(** * More on the dispatch *)

Section DispatchMore.

Context {cls obj : Type} `{SecsFunction cls obj}.

(** X8: where the table of the handler's own role has a class for
    [(stream, function)], [streamFunction] returns that class and leaves the
    state, log included, exactly as it was. *)
Theorem streamFunction_found (w : world cls) (s f : Z) (c : cls) :
  registered
    (if isHost (self w) then secsStreamsFunctionsHost (self w)
     else secsStreamsFunctionsEquipment (self w)) s f = Some c ->
  streamFunction s f w = (inr (Some c), w).
Proof. intros Hc. rewrite streamFunction_run, Hc. reflexivity. Qed.

(** X9: what one side may send the other side reads. Take two handlers on
    the same two tables and of opposite roles. For a packet with a given
    stream and function, [secsDecode] on the one uses exactly the class that
    [streamFunction] returns on the other for that stream and function, and
    returns [None] when [streamFunction] does. *)
Theorem secsDecode_reads_what_peer_sends
    (w w' : world cls) (p : HsmsPacket) :
  isHost (self w') = negb (isHost (self w)) ->
  secsStreamsFunctionsHost (self w') = secsStreamsFunctionsHost (self w) ->
  secsStreamsFunctionsEquipment (self w')
  = secsStreamsFunctionsEquipment (self w) ->
  fst (secsDecode p w')
  = match fst (streamFunction (stream (header p)) (function (header p)) w) with
    | inr (Some c) => Some <$> obj_decode (cls_call c) (data p)
    | _ => inr None
    end.
Proof.
  intros Hrole Hhost Hequipment.
  rewrite secsDecode_run, streamFunction_run, Hrole, Hhost, Hequipment.
  destruct (isHost (self w)); cbn [negb];
    (destruct (registered _ _ _) as [c|]; [|reflexivity];
     cbn zeta; cbn [fst];
     destruct (obj_decode (cls_call c) (data p)); reflexivity).
Qed.

(** X10: the two lookups never change the handler and never touch what is
    in the log already: [streamFunction] appends at most one record and
    [secsDecode] one or two. What they return does not depend on the log,
    so a lookup returns the same after any other lookup as before it. *)
Theorem lookups_only_append (w : world cls) (s f : Z) (p : HsmsPacket) :
  (exists added,
     snd (streamFunction s f w) = mkWorld (self w) (logging w ++ added)
     /\ (length added <= 1)%nat) /\
  (exists added,
     snd (secsDecode p w) = mkWorld (self w) (logging w ++ added)
     /\ (1 <= length added <= 2)%nat) /\
  (forall w', self w' = self w ->
     fst (streamFunction s f w') = fst (streamFunction s f w)
     /\ fst (secsDecode p w') = fst (secsDecode p w)) /\
  fst (secsDecode p (snd (streamFunction s f w))) = fst (secsDecode p w) /\
  fst (streamFunction s f (snd (secsDecode p w)))
  = fst (streamFunction s f w).
Proof.
  assert (forall w', self w' = self w ->
            fst (streamFunction s f w') = fst (streamFunction s f w)
            /\ fst (secsDecode p w') = fst (secsDecode p w)) as Hsame.
  { intros w' Hself. rewrite !streamFunction_run, !secsDecode_run, Hself.
    split.
    - destruct (registered _ s f); reflexivity.
    - destruct (registered _ _ _) as [c|]; [|reflexivity].
      cbn zeta. destruct (obj_decode (cls_call c) (data p)); reflexivity. }
  assert (exists added,
            snd (streamFunction s f w) = mkWorld (self w) (logging w ++ added)
            /\ (length added <= 1)%nat) as Hsf.
  { rewrite streamFunction_run. destruct (registered _ s f).
    - exists []. rewrite app_nil_r. destruct w; split; [reflexivity|cbn; lia].
    - eexists. split; [reflexivity|cbn; lia]. }
  assert (exists added,
            snd (secsDecode p w) = mkWorld (self w) (logging w ++ added)
            /\ (1 <= length added <= 2)%nat) as Hsd.
  { rewrite secsDecode_run. destruct (registered _ _ _) as [c|].
    - cbn zeta. destruct (obj_decode (cls_call c) (data p)).
      + eexists. split; [reflexivity|cbn; lia].
      + eexists. split; [cbn [snd]; rewrite <- app_assoc; reflexivity|].
        cbn; lia.
    - eexists. split; [reflexivity|cbn; lia]. }
  split; [exact Hsf|]. split; [exact Hsd|]. split; [exact Hsame|].
  destruct Hsf as (a1 & -> & _), Hsd as (a2 & -> & _).
  split; apply Hsame; reflexivity.
Qed.

(** X11: a text of fourteen octets or more is dispatched on its octets 6
    and 7 alone: [secsDecode] of the decoded packet looks up the low seven
    bits of octet 6 and octet 7 in the table of the other role and hands
    the octets from offset 14 on to the class found. Nothing else of the
    text, the message type at offset 9 included, has a part in it. *)
Theorem secsDecode_of_text
    (w : world cls) (text : list byte) (b6 b7 : byte) :
  (14 <= length text)%nat ->
  text !! 6%nat = Some b6 -> text !! 7%nat = Some b7 ->
  exists pkt,
    decode text = inr pkt /\
    fst (secsDecode pkt w)
    = match registered
              (if isHost (self w) then secsStreamsFunctionsEquipment (self w)
               else secsStreamsFunctionsHost (self w))
              (Z.land (byte_to_Z b6) 0x7F) (byte_to_Z b7) with
      | Some c => Some <$> obj_decode (cls_call c) (drop 14 text)
      | None => inr None
      end.
Proof.
  intros Hlen H6 H7. eexists. split; [now apply decode_long|].
  rewrite secsDecode_run. cbn [header data stream function].
  rewrite (field_at_byte 6 text b6 H6), (field_at_byte 7 text b7 H7).
  destruct (registered _ _ _) as [c|]; [|reflexivity].
  cbn zeta. destruct (obj_decode (cls_call c) (drop 14 text)); reflexivity.
Qed.

End DispatchMore.

(** The host's own S1F1. *)
Lemma streamFunction_found_witness :
  streamFunction 1 1 sample_host = (inr (Some secsS01F01), sample_host).
Proof.
  apply (streamFunction_found sample_host 1 1 secsS01F01).
  vm_compute. reflexivity.
Defined.

(** The equipment reads the S1F1 the host's [streamFunction] gave. *)
Lemma secsDecode_reads_what_peer_sends_witness :
  fst (secsDecode
         (mkPacket (HsmsStreamFunctionHeader 7 1 1 true 0) sample_payload)
         sample_equipment)
  = inr (Some (secsS01F01, sample_payload)).
Proof.
  rewrite (secsDecode_reads_what_peer_sends sample_host sample_equipment);
    [|reflexivity..].
  vm_compute. reflexivity.
Defined.

(** After a lookup that misses, the host still reads an S1F2. *)
Lemma lookups_only_append_witness :
  fst (secsDecode
         (mkPacket (HsmsStreamFunctionHeader 7 1 2 false 0) sample_payload)
         (snd (streamFunction 99 99 sample_host)))
  = inr (Some (secsS01F02, sample_payload)).
Proof.
  destruct (lookups_only_append sample_host 99 99
              (mkPacket (HsmsStreamFunctionHeader 7 1 2 false 0)
                 sample_payload)) as (_ & _ & _ & -> & _).
  vm_compute. reflexivity.
Defined.

(** The host reads the sample S1F2 text, response bit and all. *)
Lemma secsDecode_of_text_witness :
  exists pkt,
    decode sample_s1f2_text = inr pkt /\
    fst (secsDecode pkt sample_host) = inr (Some (secsS01F02, sample_payload)).
Proof.
  destruct (secsDecode_of_text sample_host sample_s1f2_text x81 x02)
    as (pkt & Hdec & Hrun); [cbn; lia|reflexivity..|].
  exists pkt. split; [exact Hdec|]. rewrite Hrun. vm_compute. reflexivity.
Defined.

(** * The name lookups *)

Section NamesProperties.

Context {pyobj : Type} (py_str : string -> pyobj).

(** X12: [getCEIDName] and [getDVIDName] raise for no identifier. Each
    returns something other than the empty string only for an identifier
    that its own dictionary holds with a ["name"] attribute, and then that
    attribute; an entry put into [ceids] changes the answer of
    [getCEIDName] for its own identifier alone and no answer of
    [getDVIDName], and the same with the two exchanged. *)
Theorem name_lookups (self : secsNames pyobj) (id id' : Z)
    (attributes : gmap string pyobj) :
  (getCEIDName py_str self id <> py_str "" ->
   exists found,
     ceids self !! id = Some found
     /\ found !! "name"%string = Some (getCEIDName py_str self id)) /\
  (getDVIDName py_str self id <> py_str "" ->
   exists found,
     dvs self !! id = Some found
     /\ found !! "name"%string = Some (getDVIDName py_str self id)) /\
  (let self' := mkNames (<[id := attributes]> (ceids self)) (dvs self) in
   getCEIDName py_str self' id
   = default (py_str "") (attributes !! "name"%string)
   /\ (id <> id' -> getCEIDName py_str self' id' = getCEIDName py_str self id')
   /\ getDVIDName py_str self' id' = getDVIDName py_str self id') /\
  (let self' := mkNames (ceids self) (<[id := attributes]> (dvs self)) in
   getDVIDName py_str self' id
   = default (py_str "") (attributes !! "name"%string)
   /\ (id <> id' -> getDVIDName py_str self' id' = getDVIDName py_str self id')
   /\ getCEIDName py_str self' id' = getCEIDName py_str self id').
Proof.
  unfold getCEIDName, getDVIDName. cbn [ceids dvs].
  split; [|split; [|split]].
  - destruct (ceids self !! id) as [found|]; [|intros Hne; now destruct Hne].
    destruct (found !! "name"%string) as [name|] eqn:Hname;
      [|intros Hne; now destruct Hne].
    intros _. exists found. split; [reflexivity | exact Hname].
  - destruct (dvs self !! id) as [found|]; [|intros Hne; now destruct Hne].
    destruct (found !! "name"%string) as [name|] eqn:Hname;
      [|intros Hne; now destruct Hne].
    intros _. exists found. split; [reflexivity | exact Hname].
  - cbn zeta. rewrite lookup_insert_eq. split; [|split].
    + destruct (attributes !! "name"%string); reflexivity.
    + intros Hne. rewrite lookup_insert_ne by exact Hne. reflexivity.
    + reflexivity.
  - cbn zeta. rewrite lookup_insert_eq. split; [|split].
    + destruct (attributes !! "name"%string); reflexivity.
    + intros Hne. rewrite lookup_insert_ne by exact Hne. reflexivity.
    + reflexivity.
Qed.

End NamesProperties.

(** Event 1 has a name; event 2 has an entry without one and event 3 has
    no entry, and both go by the empty string. *)
Lemma name_lookups_witness :
  (exists found,
     ceids sample_names !! 1 = Some found
     /\ found !! "name"%string = Some "ProcessStarted"%string) /\
  getCEIDName id sample_names 2 = ""%string /\
  getCEIDName id sample_names 3 = ""%string.
Proof.
  split; [|split; vm_compute; reflexivity].
  destruct (name_lookups id sample_names 1 1 ∅) as (Hfound & _).
  assert (getCEIDName id sample_names 1 = "ProcessStarted"%string) as Hname
    by (vm_compute; reflexivity).
  rewrite Hname in Hfound. apply Hfound. discriminate.
Defined.
